(** * logsim: a leveled logger (src/log.go), embedded and verified

    The Go package is embedded shallowly.  Go strings are byte sequences and
    are modelled by [string] (a list of 8-bit [ascii] values); Go's [int] is
    modelled by [Z].  The parts of the Go standard library that [log.go]
    calls are collected first, each in a module named after its Go package;
    the logger itself follows in [Section Log].  Calls run sequentially: a
    method is a function from the state of the process (the receiver and
    the sinks) to a result that either returns or exits the process. *)

From Stdlib Require Import ZArith List String Ascii Bool Lia.
From Stdlib Require Import Numbers.DecimalString Numbers.DecimalPos Numbers.DecimalZ.
Import ListNotations.

Open Scope string_scope.
Open Scope Z_scope.

(** ** Go strings *)

(** The line feed; Rocq string literals have no escape for it. *)
Definition LF : ascii := "010"%char.
Definition nl : string := String LF "".

(** [len(s)]: the number of bytes. *)
Definition len (s : string) : Z := Z.of_nat (String.length s).

Fixpoint drop (n : nat) (s : string) : string :=
  match n, s with
  | O, _ => s
  | S _, "" => ""
  | S k, String _ r => drop k r
  end.

(** [s[i:]].  Go panics unless [0 <= i <= len(s)]; the one slice expression
    of log.go is guarded by [len(fl) > 18], see [sliceFrom_guard]. *)
Definition sliceFrom (s : string) (i : Z) : string := drop (Z.to_nat i) s.

Fixpoint spaces (n : nat) : string :=
  match n with
  | O => ""
  | S k => String " " (spaces k)
  end.

(** Two's-complement wrap-around of Go's 64-bit [int]. *)
Definition int_wrap (z : Z) : Z := (z + 2 ^ 63) mod 2 ^ 64 - 2 ^ 63.

Definition byte_val (c : ascii) : Z := Z.of_N (N_of_ascii c).

Fixpoint isASCII (s : string) : bool :=
  match s with
  | "" => true
  | String c r => (byte_val c <? 128) && isASCII r
  end.

Module strings.

(** [strings.HasSuffix]: [len(s) >= len(suffix) &&
    s[len(s)-len(suffix):] == suffix]. *)
Definition HasSuffix (s suffix : string) : bool :=
  (len s >=? len suffix) &&
  String.eqb (sliceFrom s (len s - len suffix)) suffix.

End strings.

Module strconv.

(** [strconv.Itoa]: decimal digits, with a leading minus sign for a
    negative number. *)
Definition Itoa (i : Z) : string := NilZero.string_of_int (Z.to_int i).

End strconv.

Module utf8.

(** The [first] table together with [acceptRanges]: for a lead byte
    [c >= 0x80], the length of the encoding and the range allowed for the
    second byte; [None] is the table's [xx]. *)
Definition first (c : Z) : option (nat * Z * Z) :=
  if c <? 0xC2 then None
  else if c <=? 0xDF then Some (2%nat, 0x80, 0xBF)
  else if c =? 0xE0 then Some (3%nat, 0xA0, 0xBF)
  else if c <=? 0xEC then Some (3%nat, 0x80, 0xBF)
  else if c =? 0xED then Some (3%nat, 0x80, 0x9F)
  else if c <=? 0xEF then Some (3%nat, 0x80, 0xBF)
  else if c =? 0xF0 then Some (4%nat, 0x90, 0xBF)
  else if c <=? 0xF3 then Some (4%nat, 0x80, 0xBF)
  else if c =? 0xF4 then Some (4%nat, 0x80, 0x8F)
  else None.

Definition outside (c : ascii) (lo hi : Z) : bool :=
  (byte_val c <? lo) || (hi <? byte_val c).

(** The number of bytes the loop of [RuneCountInString] advances by at a
    byte [c] followed by [rest]: the size of a well-formed encoding, and 1
    for an ASCII byte and for every invalid or short sequence. *)
Definition advance (c : ascii) (rest : string) : nat :=
  if byte_val c <? 0x80 then 1%nat
  else
    match first (byte_val c) with
    | None => 1%nat
    | Some (size, lo, hi) =>
        if (String.length rest <? size - 1)%nat then 1%nat
        else
          match rest with
          | String c1 r1 =>
              if outside c1 lo hi then 1%nat
              else if (size =? 2)%nat then 2%nat
              else
                match r1 with
                | String c2 r2 =>
                    if outside c2 0x80 0xBF then 1%nat
                    else if (size =? 3)%nat then 3%nat
                    else
                      match r2 with
                      | String c3 _ =>
                          if outside c3 0x80 0xBF then 1%nat else 4%nat
                      | "" => 1%nat
                      end
                | "" => 1%nat
                end
          | "" => 1%nat
          end
    end.

(** The counting loop; [skip] is the number of bytes still belonging to
    the rune counted last. *)
Fixpoint count (skip : nat) (s : string) : nat :=
  match s with
  | "" => O
  | String c rest =>
      match skip with
      | S k => count k rest
      | O => S (count (advance c rest - 1) rest)
      end
  end.

Definition RuneCountInString (s : string) : Z := Z.of_nat (count 0 s).

End utf8.

Module filepath.

Definition isSep (c : ascii) : bool := Ascii.eqb c "/".

(** Strip trailing separators. *)
Fixpoint trimSeps (s : string) : string :=
  match s with
  | "" => ""
  | String c r =>
      match trimSeps r with
      | "" => if isSep c then "" else String c ""
      | r' => String c r'
      end
  end.

(** The bytes after the last separator ([acc] collects the current
    element). *)
Fixpoint lastElem (acc : string) (s : string) : string :=
  match s with
  | "" => acc
  | String c r =>
      if isSep c then lastElem "" r else lastElem (acc ++ String c "") r
  end.

(** [filepath.Base] for slash-separated paths (no volume names). *)
Definition Base (path : string) : string :=
  if String.eqb path "" then "."
  else
    let path := lastElem "" (trimSeps path) in
    if String.eqb path "" then "/" else path.

End filepath.

Module time.

(** A broken-down local time, as [Time.Format] sees it. *)
Record Time : Type := mkTime {
  Year : Z; Month : Z; Day : Z; Hour : Z; Minute : Z; Second : Z
}.

Fixpoint zeros (n : nat) : string :=
  match n with
  | O => ""
  | S k => String "0" (zeros k)
  end.

(** [appendInt]: the decimal digits of [x], zero-padded on the left to
    [width] digits, after a minus sign when [x] is negative. *)
Definition appendInt (x : Z) (width : nat) : string :=
  let digits := strconv.Itoa (Z.abs x) in
  (if x <? 0 then "-" else "") ++
  zeros (width - String.length digits) ++ digits.

(** [t.Format("2006/01/02 15:04:05 ")]: the layout's chunks are the
    four-digit year, the two-digit month, day, hour, minute and second,
    with the literal bytes between them. *)
Definition Format (t : Time) : string :=
  appendInt (Year t) 4 ++ "/" ++ appendInt (Month t) 2 ++ "/" ++
  appendInt (Day t) 2 ++ " " ++ appendInt (Hour t) 2 ++ ":" ++
  appendInt (Minute t) 2 ++ ":" ++ appendInt (Second t) 2 ++ " ".

End time.

(** ** Errors and operands *)

(** A non-nil [error] value, observed through its [Error()] method. *)
Record errorValue : Type := mkError { Error_ : string }.

(** The interface type [error]; [None] is [nil]. *)
Definition error : Type := option errorValue.

(** The operands ([interface{}] values) that log.go and its callers pass to
    the formatting functions. *)
Inductive any : Type :=
| AnyNil
| AnyInt (i : Z)
| AnyString (s : string)
| AnyError (e : errorValue).

(** Conversion of an [error] to [interface{}]: a nil error is the nil
    interface. *)
Definition any_of_error (err : error) : any :=
  match err with
  | None => AnyNil
  | Some e => AnyError e
  end.

Module fmt.

(** [%v] of an error operand. *)
Definition errString (err : error) : string :=
  match err with
  | None => "<nil>"
  | Some e => Error_ e
  end.

(** Right padding with spaces to [width] runes, as [padString] and [pad]
    do under the [-] flag. *)
Definition padRight (width : Z) (s : string) : string :=
  s ++ spaces (Z.to_nat (width - utf8.RuneCountInString s)).

Definition mentions_w (format : string) : bool :=
  existsb (Ascii.eqb "w") (list_ascii_of_string format).

(** Package [fmt] as log.go uses it.  [Sprintf] and [Errorf] are applied
    to formats supplied by the caller and stay abstract; the laws fix
    their results on the three formats log.go itself contains, and say
    that [Errorf] formats like [Sprintf] except for the verb [%w]. *)
Class Printer : Type := {
  Sprintf : string -> list any -> string;
  Errorf : string -> list any -> errorValue;
  Sprintf_location : forall (base : string) (line : Z),
    Sprintf "%s:%-4d" [AnyString base; AnyInt line] =
    base ++ ":" ++ padRight 4 (strconv.Itoa line);
  Sprintf_pad18 : forall s : string,
    Sprintf "%-18s" [AnyString s] = padRight 18 s;
  Sprintf_Error : forall err : error,
    Sprintf ("Error: %v" ++ nl) [any_of_error err] =
    "Error: " ++ errString err ++ nl;
  Errorf_Sprintf : forall (format : string) (a : list any),
    mentions_w format = false ->
    Error_ (Errorf format a) = Sprintf format a
}.

End fmt.

(** ** A reference printer

    [doPrintf] below follows the loop of Go's printer on the directives that
    occur in log.go and in the examples of this file: the verbs [v], [d],
    [s] (and [w] under [Errorf]), the flag [-], a decimal width, and [%%],
    with the printer's marks for a missing operand, a missing verb and
    operands left over.  The other flags (a leading [0] is read here as a
    digit of the width), precisions, argument indexes and the remaining
    verbs are outside this fragment.  The printer shows that the laws of
    [fmt.Printer] can be met and runs the logger on concrete inputs; the
    statements about the logger hold for every [fmt.Printer]. *)
Module RefPrinter.

Inductive mode : Type :=
| Lit
| Spec (minus : bool) (wid : option Z).

Definition pad (minus : bool) (wid : option Z) (s : string) : string :=
  match wid with
  | None => s
  | Some w =>
      let n := Z.to_nat (w - utf8.RuneCountInString s) in
      if minus then s ++ spaces n else spaces n ++ s
  end.

Definition digit (c : ascii) : option Z :=
  let v := byte_val c in
  if (48 <=? v) && (v <=? 57) then Some (v - 48) else None.

Definition typeName (a : any) : string :=
  match a with
  | AnyNil => "<nil>"
  | AnyInt _ => "int"
  | AnyString _ => "string"
  | AnyError _ => "error"
  end.

Definition plain (a : any) : string :=
  match a with
  | AnyNil => "<nil>"
  | AnyInt i => strconv.Itoa i
  | AnyString s => s
  | AnyError e => Error_ e
  end.

Definition badVerb (verb : ascii) (a : any) : string :=
  "%!" ++ String verb "" ++ "(" ++
  match a with
  | AnyNil => "<nil>"
  | _ => typeName a ++ "=" ++ plain a
  end ++ ")".

Definition isVerb (verb c : ascii) : bool := Ascii.eqb verb c.

Definition printArg (wrapErrs minus : bool) (wid : option Z)
    (verb : ascii) (a : any) : string :=
  match a with
  | AnyNil =>
      if isVerb verb "v" then pad minus wid "<nil>" else badVerb verb a
  | AnyInt i =>
      if isVerb verb "v" || isVerb verb "d"
      then pad minus wid (strconv.Itoa i) else badVerb verb a
  | AnyString s =>
      if isVerb verb "v" || isVerb verb "s"
      then pad minus wid s else badVerb verb a
  | AnyError e =>
      if isVerb verb "v" || isVerb verb "s" || (isVerb verb "w" && wrapErrs)
      then pad minus wid (Error_ e) else badVerb verb a
  end.

Fixpoint extras (a : list any) : string :=
  match a with
  | [] => ""
  | [x] => typeName x ++ "=" ++ plain x
  | x :: r => typeName x ++ "=" ++ plain x ++ ", " ++ extras r
  end.

Definition finish (a : list any) : string :=
  match a with
  | [] => ""
  | _ => "%!(EXTRA " ++ extras a ++ ")"
  end.

(** One directive with verb [verb]: its output and the operands left. *)
Definition verbStep (wrapErrs minus : bool) (wid : option Z) (verb : ascii)
    (a : list any) : string * list any :=
  if Ascii.eqb verb "%" then ("%", a)
  else
    match a with
    | [] => ("%!" ++ String verb "" ++ "(MISSING)", [])
    | x :: a' => (printArg wrapErrs minus wid verb x, a')
    end.

Fixpoint doPrintf (wrapErrs : bool) (m : mode) (a : list any)
    (format : string) : string :=
  match format with
  | "" =>
      match m with
      | Lit => finish a
      | Spec _ _ => "%!(NOVERB)" ++ finish a
      end
  | String c rest =>
      match m with
      | Lit =>
          if Ascii.eqb c "%" then doPrintf wrapErrs (Spec false None) a rest
          else String c (doPrintf wrapErrs Lit a rest)
      | Spec minus wid =>
          match digit c with
          | Some d =>
              let w := match wid with None => d | Some w => 10 * w + d end in
              doPrintf wrapErrs (Spec minus (Some w)) a rest
          | None =>
              if Ascii.eqb c "-" && negb minus &&
                 match wid with None => true | Some _ => false end
              then doPrintf wrapErrs (Spec true None) a rest
              else
                let '(out, a') := verbStep wrapErrs minus wid c a in
                out ++ doPrintf wrapErrs Lit a' rest
          end
      end
  end.

Definition Sprintf (format : string) (a : list any) : string :=
  doPrintf false Lit a format.

Definition Errorf (format : string) (a : list any) : errorValue :=
  mkError (doPrintf true Lit a format).

End RefPrinter.

(** ** The process around the logger *)

(** A reference to an [io.WriteCloser]. *)
Definition ref : Type := nat.

(** The method calls a sink receives.  The sink is an interface value: what
    the package does to it is the sequence of calls it makes; the values the
    calls return are discarded by log.go. *)
Inductive call : Type :=
| Write (p : string)
| CloseCall.

(** [type Level int] and its four constants. *)
Definition FatalLevel : Z := 0.
Definition ErrorLevel : Z := 1.
Definition InfoLevel : Z := 2.
Definition DebugLevel : Z := 3.

Definition levelToLetter : list (Z * string) :=
  [(FatalLevel, "F"); (ErrorLevel, "E"); (InfoLevel, "_"); (DebugLevel, ".")].

(** The two-valued map index [v, ok := m[k]]. *)
Fixpoint index (m : list (Z * string)) (k : Z) : string * bool :=
  match m with
  | [] => ("", false)
  | (k', v) :: m' => if k' =? k then (v, true) else index m' k
  end.

(** [type Logger struct]; [locked] is the state of the embedded
    [sync.Mutex]. *)
Record Logger : Type := mkLogger {
  Level : Z;
  Time : bool;
  w : ref;
  locked : bool
}.

(** The state a method of [*Logger] runs in: the receiver and the sinks of
    the process. *)
Record State : Type := mkState {
  self : Logger;
  sinks : ref -> list call
}.

(** A call either returns to its caller or ends the process ([os.Exit]). *)
Inductive Result (A : Type) : Type :=
| Return (a : A) (s : State)
| Exit (code : Z) (s : State).
Arguments Return {A} a s.
Arguments Exit {A} code s.

Definition M (A : Type) : Type := State -> Result A.

Definition ret {A : Type} (a : A) : M A := fun s => Return a s.

Definition bind {A B : Type} (c : M A) (k : A -> M B) : M B :=
  fun s =>
    match c s with
    | Return a s' => k a s'
    | Exit code s' => Exit code s'
    end.

Notation "x <- c ;; k" := (bind c (fun x => k))
  (at level 61, c at next level, right associativity).
Notation "c ;; k" := (bind c (fun _ => k))
  (at level 61, right associativity).

(** The receiver [l]. *)
Definition this : M Logger := fun s => Return (self s) s.

Definition set_locked (b : bool) (l : Logger) : Logger :=
  {| Level := Level l; Time := Time l; w := w l; locked := b |}.

(** [l.Lock()] returns once the caller holds the mutex. *)
Definition Lock : M unit :=
  fun s => Return tt {| self := set_locked true (self s); sinks := sinks s |}.

Definition Unlock : M unit :=
  fun s => Return tt {| self := set_locked false (self s); sinks := sinks s |}.

Definition record_call (r : ref) (c : call) (h : ref -> list call) :
    ref -> list call :=
  fun r' => if Nat.eqb r' r then (h r ++ [c])%list else h r'.

(** A method call on the sink [l.w]. *)
Definition sink_call (c : call) : M unit :=
  fun s =>
    Return tt {| self := self s; sinks := record_call (w (self s)) c (sinks s) |}.

Definition os_Exit {A : Type} (code : Z) : M A := fun s => Exit code s.

(** What the call sees of its surroundings: the frames of the call stack
    ([runtime.Caller] gives file, line and ok) and the local time. *)
Record World : Type := mkWorld {
  runtime_Caller : Z -> string * Z * bool;
  time_Now : time.Time
}.

(** ** The logger (src/log.go) *)

Section Log.

Context {P : fmt.Printer} (W : World).

(** [New]. *)
Definition New (r : ref) : Logger :=
  {| w := r; Level := ErrorLevel; Time := true; locked := false |}.

(** [Close]. *)
Definition Close : M unit := sink_call CloseCall.

(** Lines 81-90 of [log]: the location field. *)
Definition location (skip : Z) : string :=
  let '(file, line, ok) := runtime_Caller W (int_wrap (2 + skip)) in
  let file := if negb ok then "unknown" else file in
  let fl := fmt.Sprintf "%s:%-4d" [AnyString (filepath.Base file); AnyInt line] in
  let fl := if len fl >? 18 then sliceFrom fl (len fl - 18) else fl in
  fmt.Sprintf "%-18s" [AnyString fl].

(** Lines 92-96 of [log]: the marker. *)
Definition marker (level : Z) : string :=
  let '(letter, ok) := index levelToLetter level in
  if negb ok then strconv.Itoa level else letter.

(** Lines 78-106 of [log]: the bytes handed to the sink. *)
Definition message (l : Logger) (level skip : Z) (format : string)
    (a : list any) : string :=
  let msg := fmt.Sprintf format a in
  let msg := location skip ++ " " ++ msg in
  let msg := marker level ++ " " ++ msg in
  let msg := if Time l then time.Format (time_Now W) ++ msg else msg in
  if negb (strings.HasSuffix msg nl) then msg ++ nl else msg.

(** [log]. *)
Definition log (level skip : Z) (format : string) (a : list any) : M unit :=
  l <- this ;;
  if level >? Level l then ret tt
  else
    let msg := message l level skip format a in
    Lock ;; sink_call (Write msg) ;; Unlock.

Definition Debugf (format : string) (a : list any) : M unit :=
  log DebugLevel 1 format a.

Definition Infof (format : string) (a : list any) : M unit :=
  log InfoLevel 1 format a.

Definition Errorf (format : string) (a : list any) : M error :=
  log ErrorLevel 1 format a ;;
  ret (Some (fmt.Errorf format a)).

Definition Error (err : error) : M error :=
  log ErrorLevel 1 ("Error: %v" ++ nl) [any_of_error err] ;;
  ret err.

Definition Fatalf (format : string) (a : list any) : M unit :=
  log FatalLevel 1 format a ;;
  os_Exit 1.

Definition Fatal (err : error) : M unit :=
  log FatalLevel 1 ("Error: %v" ++ nl) [any_of_error err] ;;
  os_Exit 1.

End Log.

(** [os.Stderr]. *)
Definition Stderr : ref := 2%nat.

(** [Default].  The package-level functions of lines 157-184 call the
    methods above with this logger as the receiver. *)
Definition Default : Logger :=
  {| w := Stderr; Level := ErrorLevel; Time := true; locked := false |}.

(** ** The call stack and the package-level functions *)

Module runtime.

(** A call site: the file and line of a call that is still running. *)
Record Frame : Type := mkFrame { File : string; Line : Z }.

(** The running calls, innermost first. *)
Definition Stack : Type := list Frame.

(** [runtime.Caller(skip)] on a stack whose first entry is the call of
    [runtime.Caller] itself: file, line and ok of the entry [skip] frames
    up, and the zero values with [ok = false] when there is none. *)
Definition Caller (st : Stack) (skip : Z) : string * Z * bool :=
  if skip <? 0 then ("", 0, false)
  else
    match nth_error st (Z.to_nat skip) with
    | Some f => (File f, Line f, true)
    | None => ("", 0, false)
    end.

End runtime.

(** The surroundings of a call of [runtime.Caller] made on the stack [st]
    at the time [now]. *)
Definition stackWorld (st : runtime.Stack) (now : time.Time) : World :=
  {| runtime_Caller := runtime.Caller st; time_Now := now |}.

(** What [log] sees when a method of [*Logger] runs with the calls
    [callers] above it (the method's own call site first): [log] calls
    [runtime.Caller] on line 82 of log.go and is itself called on line
    [callLine] of log.go, the line of the method's body. *)
Definition methodWorld (logGo : string) (callLine : Z)
    (callers : runtime.Stack) (now : time.Time) : World :=
  stackWorld
    (runtime.mkFrame logGo 82 :: runtime.mkFrame logGo callLine :: callers) now.

(** The package-level functions (lines 157-184).  Each calls the method of
    the same name on [Default], the receiver of the state it runs in, from
    its own line of log.go; [callers] are the calls above the function, its
    own call site first, and [logGo] is the path log.go was compiled
    under. *)
Module pkg.

Section Calls.

Context {P : fmt.Printer}.
Variable logGo : string.
Variable callers : runtime.Stack.
Variable now : time.Time.

Definition Debugf (format : string) (a : list any) : M unit :=
  Debugf (methodWorld logGo 115 (runtime.mkFrame logGo 159 :: callers) now)
    format a.

Definition Infof (format : string) (a : list any) : M unit :=
  Infof (methodWorld logGo 120 (runtime.mkFrame logGo 164 :: callers) now)
    format a.

Definition Errorf (format : string) (a : list any) : M error :=
  Errorf (methodWorld logGo 126 (runtime.mkFrame logGo 169 :: callers) now)
    format a.

Definition Error (err : error) : M error :=
  Error (methodWorld logGo 132 (runtime.mkFrame logGo 173 :: callers) now) err.

Definition Fatalf (format : string) (a : list any) : M unit :=
  Fatalf (methodWorld logGo 139 (runtime.mkFrame logGo 178 :: callers) now)
    format a.

Definition Fatal (err : error) : M unit :=
  Fatal (methodWorld logGo 146 (runtime.mkFrame logGo 183 :: callers) now) err.

End Calls.

End pkg.

(** A run of consecutive calls of [log], each with its own surroundings. *)
Record LogCall : Type := mkLogCall {
  lc_world : World;
  lc_level : Z;
  lc_skip : Z;
  lc_format : string;
  lc_args : list any
}.

Section Runs.

Context {P : fmt.Printer}.

Fixpoint logs (cs : list LogCall) : M unit :=
  match cs with
  | [] => ret tt
  | c :: rest =>
      log (lc_world c) (lc_level c) (lc_skip c) (lc_format c) (lc_args c) ;;
      logs rest
  end.

End Runs.

(** * Vocabulary of the statements *)

(** The number of line feeds a string ends with. *)
Fixpoint trailingNewlines (s : string) : nat :=
  match s with
  | "" => O
  | String c r =>
      let n := trailingNewlines r in
      if Ascii.eqb c LF && (n =? String.length r)%nat then S n else n
  end.

Definition isDigit (c : ascii) : bool :=
  (48 <=? byte_val c) && (byte_val c <=? 57).

(** [matches pat s]: [s] has the shape [pat], where a [d] in [pat] stands
    for any decimal digit and every other byte for itself. *)
Fixpoint matches (pat s : string) : bool :=
  match pat, s with
  | "", "" => true
  | String p pat', String c s' =>
      (if Ascii.eqb p "d" then isDigit c else Ascii.eqb p c) && matches pat' s'
  | _, _ => false
  end.

Definition validTime (t : time.Time) : Prop :=
  0 <= time.Year t <= 9999 /\ 1 <= time.Month t <= 12 /\
  1 <= time.Day t <= 31 /\ 0 <= time.Hour t <= 23 /\
  0 <= time.Minute t <= 59 /\ 0 <= time.Second t <= 59.

(** A call from line 42 of /home/u/src/main.go, three frames above
    [runtime.Caller], on 2018/03/09 at 07:05:00. *)
Definition sampleWorld : World :=
  {| runtime_Caller := fun k =>
       if k =? 3 then ("/home/u/src/main.go", 42, true) else ("", 0, false);
     time_Now := time.mkTime 2018 3 9 7 5 0 |}.

(** The default logger before anything has been written. *)
Definition sampleState : State :=
  {| self := Default; sinks := fun _ => [] |}.

(** The timestamp segment of a line. *)
Definition stamp (W : World) (l : Logger) : string :=
  if Time l then time.Format (time_Now W) else "".

(** The assignment [l.Time = b]. *)
Definition with_Time (b : bool) (l : Logger) : Logger :=
  {| Level := Level l; Time := b; w := w l; locked := locked l |}.

(** The state a call ends in, whether it returns or exits. *)
Definition final {A : Type} (r : Result A) : State :=
  match r with
  | Return _ s => s
  | Exit _ s => s
  end.

(** The configuration of a logger: threshold, timestamp flag and sink
    reference. *)
Definition config (l : Logger) : Z * bool * ref := (Level l, Time l, w l).

Definition isWrite (c : call) : bool :=
  match c with
  | Write _ => true
  | CloseCall => false
  end.

(** An operation keeps the configuration: it ends with the receiver's
    configuration as it found it, leaves every other sink alone, and adds at
    most one [Write] to the receiver's sink. *)
Definition keeps_configuration {A : Type} (m : M A) : Prop :=
  forall s : State,
    let s' := final (m s) in
    config (self s') = config (self s) /\
    (forall r : ref, r <> w (self s) -> sinks s' r = sinks s r) /\
    exists calls : list call,
      sinks s' (w (self s)) = (sinks s (w (self s)) ++ calls)%list /\
      forallb isWrite calls = true /\ (List.length calls <= 1)%nat.

(** The rendering of base name and line before it is cut and padded. *)
Definition rendering (base : string) (line : Z) : string :=
  base ++ ":" ++ strconv.Itoa line ++
  spaces (4 - String.length (strconv.Itoa line)).

(** [fl] after the slice of line 88. *)
Definition kept (fl : string) : string :=
  if len fl >? 18 then sliceFrom fl (len fl - 18) else fl.

(** The default logger with the threshold lowered to Fatal. *)
Definition quietState : State :=
  {| self := {| Level := FatalLevel; Time := true; w := Stderr; locked := false |};
     sinks := fun _ => [] |}.

(** The byte pair that encodes the letter e with an acute accent. *)
Definition eacute : string := String "195" (String "169" "").

(** A call from line 1 of a file whose name starts with two accented
    letters. *)
Definition accentedFile : string := "/home/u/src/" ++ eacute ++ eacute ++ "logging.go".

Definition accentedWorld : World :=
  {| runtime_Caller := fun _ => (accentedFile, 1, true);
     time_Now := time.mkTime 2018 3 9 7 5 0 |}.

(** The surroundings in which every frame is the call site [f]. *)
Definition siteWorld (f : runtime.Frame) (now : time.Time) : World :=
  {| runtime_Caller := fun _ => (runtime.File f, runtime.Line f, true);
     time_Now := now |}.

(** The surroundings in which no frame is found. *)
Definition lostWorld (now : time.Time) : World :=
  {| runtime_Caller := fun _ => ("", 0, false); time_Now := now |}.

(** The location field that names the call site [f]. *)
Definition fieldOf (f : runtime.Frame) : string :=
  fmt.padRight 18
    (kept (rendering (filepath.Base (runtime.File f)) (runtime.Line f))).

(** The calls of a run that pass the gate of [l], as the sink receives
    them. *)
Definition lines {P : fmt.Printer} (l : Logger) (cs : list LogCall) :
    list call :=
  map (fun c => Write (message (lc_world c) l (lc_level c) (lc_skip c)
                         (lc_format c) (lc_args c)))
      (filter (fun c => lc_level c <=? Level l) cs).

(** An operation that changes the state ends with the mutex released. *)
Definition releases_lock {A : Type} (m : M A) : Prop :=
  forall s : State,
    final (m s) = s \/ locked (self (final (m s))) = false.

(** A call from line 1234 of a file with a long name. *)
Definition longNameWorld : World :=
  {| runtime_Caller := fun _ =>
       ("/home/u/src/request_handler_test.go", 1234, true);
     time_Now := time.mkTime 2018 3 9 7 5 0 |}.

(** A program whose [main] calls a function on line 42 of main.go; the Go
    runtime called [main] from line 250 of proc.go. *)
Definition mainStack : runtime.Stack :=
  [runtime.mkFrame "/home/u/src/main.go" 42;
   runtime.mkFrame "/usr/lib/go/src/runtime/proc.go" 250].

Definition clock : time.Time := time.mkTime 2018 3 9 7 5 0.

(** * Facts *)

(** ** Examples of the library functions *)

Example Itoa_ex : map strconv.Itoa [0; 7; -12; 1000] = ["0"; "7"; "-12"; "1000"].
Proof. reflexivity. Qed.

Example Base_ex :
  map filepath.Base ["/a/b/log.go"; "log.go"; ""; "///"; "/a/b/"] =
  ["log.go"; "log.go"; "."; "/"; "b"].
Proof. reflexivity. Qed.

Example Format_ex :
  time.Format (time.mkTime 2018 3 9 7 5 0) = "2018/03/09 07:05:00 ".
Proof. reflexivity. Qed.

Example RuneCount_ex :
  utf8.RuneCountInString
    (String "195" (String "169" (String "226" (String "130" "a")))) = 4.
Proof. reflexivity. Qed.

Lemma append_nil_r (s : string) : s ++ "" = s.
Proof. induction s; simpl; congruence. Qed.

(** ** The reference printer satisfies the laws of [fmt.Printer] *)

Module RefPrinterFacts.
Import RefPrinter.

Example Sprintf_ex :
  RefPrinter.Sprintf "x=%d, %s|%-6s|%4d|%v%%" [AnyInt 5; AnyString "a"; AnyString "bc";
                                    AnyInt 42; AnyError (mkError "boom")] =
  "x=5, a|bc    |  42|boom%".
Proof. reflexivity. Qed.

Lemma printArg_no_w (wrapErrs minus : bool) wid verb x :
  Ascii.eqb "w" verb = false ->
  printArg wrapErrs minus wid verb x = printArg false minus wid verb x.
Proof.
  intros Hw. destruct x; simpl; try reflexivity.
  unfold isVerb. rewrite (Ascii.eqb_sym verb "w"), Hw. reflexivity.
Qed.

Lemma doPrintf_no_w (wrapErrs : bool) (format : string) :
  fmt.mentions_w format = false ->
  forall m a, doPrintf wrapErrs m a format = doPrintf false m a format.
Proof.
  unfold fmt.mentions_w.
  induction format as [|c rest IH]; intros Hw m a; [reflexivity|].
  simpl in Hw. apply orb_false_iff in Hw. destruct Hw as [Hc Hrest].
  specialize (IH Hrest). simpl.
  destruct m as [|minus wid].
  - rewrite !IH. reflexivity.
  - destruct (digit c); [apply IH|].
    destruct (_ && _); [apply IH|].
    unfold verbStep. destruct (Ascii.eqb c "%"); [now rewrite IH|].
    destruct a as [|x a']; [now rewrite IH|].
    rewrite IH, (printArg_no_w wrapErrs) by assumption. reflexivity.
Qed.

#[export] Instance printer : fmt.Printer.
Proof.
  refine {| fmt.Sprintf := Sprintf; fmt.Errorf := Errorf |}.
  - intros base line.
    transitivity (base ++ ":" ++ fmt.padRight 4 (strconv.Itoa line) ++ "");
      [reflexivity | now rewrite append_nil_r].
  - intros s.
    transitivity (fmt.padRight 18 s ++ "");
      [reflexivity | now rewrite append_nil_r].
  - intros [e|]; reflexivity.
  - intros format a Hw. simpl. now apply doPrintf_no_w.
Defined.

End RefPrinterFacts.

(** ** Go strings *)

Lemma length_app (s t : string) :
  String.length (s ++ t) = (String.length s + String.length t)%nat.
Proof. induction s; simpl; congruence. Qed.

Lemma len_app (s t : string) : len (s ++ t) = len s + len t.
Proof. unfold len. rewrite length_app. lia. Qed.

Lemma app_assoc (s t u : string) : (s ++ t) ++ u = s ++ t ++ u.
Proof. induction s; simpl; congruence. Qed.

Lemma length_spaces (n : nat) : String.length (spaces n) = n.
Proof. induction n; simpl; congruence. Qed.

Lemma drop_app (s t : string) : drop (String.length s) (s ++ t) = t.
Proof. induction s; simpl; [destruct t|]; auto. Qed.

Lemma length_drop (n : nat) (s : string) :
  String.length (drop n s) = (String.length s - n)%nat.
Proof.
  revert s. induction n as [|n IH]; intros [|c s]; simpl; auto.
Qed.

(** A string is empty or ends with a last byte. *)
Lemma snoc_cases (s : string) :
  s = "" \/ exists p c, s = p ++ String c "".
Proof.
  induction s as [|x s IH]; [now left|right].
  destruct IH as [->|(p & c & ->)].
  - now exists "", x.
  - now exists (String x p), c.
Qed.

(** The slice expression of [log] is in range. *)
Lemma sliceFrom_guard (fl : string) :
  (len fl >? 18) = true -> 0 <= len fl - 18 <= len fl.
Proof. unfold len. intros H%Z.gtb_lt. lia. Qed.

Lemma len_sliceFrom_18 (fl : string) :
  (len fl >? 18) = true -> len (sliceFrom fl (len fl - 18)) = 18.
Proof.
  unfold sliceFrom, len. intros H%Z.gtb_lt. rewrite length_drop. lia.
Qed.

(** *** [strings.HasSuffix] with the line feed *)

Lemma HasSuffix_nil : strings.HasSuffix "" nl = false.
Proof. reflexivity. Qed.

Lemma HasSuffix_snoc (p : string) (c : ascii) :
  strings.HasSuffix (p ++ String c "") nl = Ascii.eqb c LF.
Proof.
  unfold strings.HasSuffix, sliceFrom.
  replace (Z.to_nat (len (p ++ String c "") - len nl)) with (String.length p)
    by (rewrite len_app; unfold len; simpl; lia).
  rewrite drop_app, len_app.
  replace (len p + len (String c "") >=? len nl) with true
    by (symmetry; apply Z.geb_le; unfold len; simpl; lia).
  simpl. unfold nl. simpl. now destruct (Ascii.eqb c LF).
Qed.

(** Only the end of a string decides whether it ends with a line feed. *)
Lemma HasSuffix_app (s : string) (x : ascii) (t : string) :
  strings.HasSuffix (s ++ String x t) nl = strings.HasSuffix (String x t) nl.
Proof.
  destruct (snoc_cases t) as [->|(p & c & ->)].
  - rewrite HasSuffix_snoc. symmetry. apply (HasSuffix_snoc "").
  - change (String x (p ++ String c "")) with (String x p ++ String c "").
    rewrite <- app_assoc, !HasSuffix_snoc. reflexivity.
Qed.

Lemma HasSuffix_after_space (s t : string) :
  strings.HasSuffix (s ++ " " ++ t) nl = strings.HasSuffix t nl.
Proof.
  change (s ++ " " ++ t) with (s ++ String " " t). rewrite HasSuffix_app.
  destruct (snoc_cases t) as [->|(p & c & ->)]; [reflexivity|].
  change (String " " (p ++ String c "")) with (String " " p ++ String c "").
  now rewrite !HasSuffix_snoc.
Qed.

(** *** Counting trailing line feeds *)

Lemma trailingNewlines_le (s : string) :
  (trailingNewlines s <= String.length s)%nat.
Proof.
  induction s as [|c s IH]; simpl; [lia|].
  destruct (_ && _); lia.
Qed.

Lemma trailingNewlines_add_nl (s : string) :
  trailingNewlines (s ++ nl) = S (trailingNewlines s).
Proof.
  induction s as [|c s IH]; [reflexivity|].
  simpl. rewrite IH, length_app. simpl String.length.
  replace (S (trailingNewlines s) =? String.length s + 1)%nat
    with (trailingNewlines s =? String.length s)%nat.
  - now destruct (_ && _).
  - destruct (Nat.eqb_spec (trailingNewlines s) (String.length s));
      symmetry; [apply Nat.eqb_eq|apply Nat.eqb_neq]; lia.
Qed.

Lemma trailingNewlines_app (s : string) (x : ascii) (t : string) :
  Ascii.eqb x LF = false ->
  trailingNewlines (s ++ String x t) = trailingNewlines t.
Proof.
  intros Hx. induction s as [|c s IH]; simpl.
  - now rewrite Hx.
  - rewrite IH, length_app. simpl String.length.
    pose proof (trailingNewlines_le t).
    replace (trailingNewlines t =? String.length s + S (String.length t))%nat
      with false by (symmetry; apply Nat.eqb_neq; lia).
    now rewrite andb_false_r.
Qed.

Lemma HasSuffix_trailingNewlines (s : string) :
  strings.HasSuffix s nl = negb (trailingNewlines s =? 0)%nat.
Proof.
  destruct (snoc_cases s) as [->|(p & c & ->)]; [reflexivity|].
  rewrite HasSuffix_snoc.
  destruct (Ascii.eqb c LF) eqn:Hc.
  - apply Ascii.eqb_eq in Hc. subst c.
    change (String LF "") with nl. now rewrite trailingNewlines_add_nl.
  - now rewrite trailingNewlines_app.
Qed.

(** ** Decimal renderings *)

Lemma matches_app (p1 s1 p2 s2 : string) :
  matches p1 s1 = true -> matches p2 s2 = true ->
  matches (p1 ++ p2) (s1 ++ s2) = true.
Proof.
  revert s1. induction p1 as [|p p1 IH]; intros [|c s1]; simpl; try easy.
  intros [H1 H2]%andb_prop H. now rewrite H1, IH.
Qed.

Lemma matches_length (pat s : string) :
  matches pat s = true -> String.length s = String.length pat.
Proof.
  revert s. induction pat as [|p pat IH]; intros [|c s]; simpl; try easy.
  intros [_ H]%andb_prop. now rewrite (IH s).
Qed.

(** A property checked on [0 .. n-1] holds on that range. *)
Lemma checked_range (f : Z -> bool) (n : Z) :
  forallb f (map Z.of_nat (seq 0 (Z.to_nat n))) = true ->
  forall x, 0 <= x < n -> f x = true.
Proof.
  intros H x Hx. rewrite forallb_forall in H. apply H.
  apply in_map_iff. exists (Z.to_nat x). split; [lia|].
  apply in_seq. lia.
Qed.

Lemma appendInt_2_digits (x : Z) :
  0 <= x < 100 -> matches "dd" (time.appendInt x 2) = true.
Proof.
  apply (checked_range (fun x => matches "dd" (time.appendInt x 2)) 100).
  vm_compute. reflexivity.
Qed.

Lemma appendInt_4_digits (x : Z) :
  0 <= x < 10000 -> matches "dddd" (time.appendInt x 4) = true.
Proof.
  apply (checked_range (fun x => matches "dddd" (time.appendInt x 4)) 10000).
  vm_compute. reflexivity.
Qed.

Lemma Itoa_length_below_1000 (x : Z) :
  0 <= x < 1000 -> (1 <= String.length (strconv.Itoa x) <= 3)%nat.
Proof.
  intros Hx.
  pose (f := fun x => let n := String.length (strconv.Itoa x) in
                      (1 <=? n)%nat && (n <=? 3)%nat).
  assert (H : f x = true).
  { apply (checked_range f 1000); [vm_compute; reflexivity|exact Hx]. }
  unfold f in H. apply andb_prop in H as [H1 H2].
  apply Nat.leb_le in H1, H2. lia.
Qed.

Lemma isASCII_app (s t : string) :
  isASCII (s ++ t) = isASCII s && isASCII t.
Proof.
  induction s as [|c s IH]; simpl; [reflexivity|].
  now rewrite IH, andb_assoc.
Qed.

Lemma isASCII_spaces (n : nat) : isASCII (spaces n) = true.
Proof. induction n; simpl; auto. Qed.

Lemma isASCII_drop (n : nat) (s : string) :
  isASCII s = true -> isASCII (drop n s) = true.
Proof.
  revert s. induction n as [|n IH]; intros [|c s]; simpl; auto.
  intros [_ H]%andb_prop. auto.
Qed.

Lemma isASCII_uint (d : Decimal.uint) :
  isASCII (NilEmpty.string_of_uint d) = true.
Proof. induction d; simpl; auto. Qed.

(** [strconv.Itoa] produces ASCII only. *)
Lemma isASCII_Itoa (x : Z) : isASCII (strconv.Itoa x) = true.
Proof.
  unfold strconv.Itoa, NilZero.string_of_int.
  destruct (Z.to_int x) as [d|d]; unfold NilZero.string_of_uint;
    destruct d; try reflexivity;
    change (isASCII (String "-" ?s)) with (isASCII s);
    apply (isASCII_uint (_ _)).
Qed.

(** On ASCII, runes are bytes. *)
Lemma count_ASCII (s : string) :
  isASCII s = true -> utf8.count 0 s = String.length s.
Proof.
  induction s as [|c s IH]; simpl; [reflexivity|].
  intros [Hc Hs]%andb_prop. unfold utf8.advance.
  replace (byte_val c <? 0x80) with true. simpl. now rewrite IH.
Qed.

Lemma padRight_ASCII (width : Z) (s : string) :
  isASCII s = true ->
  fmt.padRight width s = s ++ spaces (Z.to_nat (width - len s)).
Proof.
  intros H. unfold fmt.padRight, utf8.RuneCountInString, len.
  now rewrite count_ASCII.
Qed.

Lemma drop_app_le (n : nat) (s t : string) :
  (n <= String.length s)%nat -> drop n (s ++ t) = drop n s ++ t.
Proof.
  revert s. induction n as [|n IH]; intros [|c s]; simpl; auto; try lia.
  intros H. apply IH. lia.
Qed.

(** ** Runes and padding *)

Lemma first_spec (b : Z) (size : nat) (lo hi : Z) :
  utf8.first b = Some (size, lo, hi) ->
  (size = 2 \/ size = 3 \/ size = 4)%nat /\ 0x80 <= lo.
Proof.
  unfold utf8.first.
  repeat match goal with
         | |- context [if ?c then _ else _] => destruct c
         end;
    intros E; inversion E; subst; split; auto; lia.
Qed.

Lemma outside_space (lo hi : Z) : 0x80 <= lo -> utf8.outside " " lo hi = true.
Proof.
  intros H. unfold utf8.outside. apply orb_true_iff. left.
  apply Z.ltb_lt. change (byte_val " ") with 32. lia.
Qed.

Lemma advance_bounds (c : ascii) (rest : string) :
  (1 <= utf8.advance c rest <= 1 + String.length rest)%nat.
Proof.
  unfold utf8.advance.
  destruct (byte_val c <? 0x80); [lia|].
  destruct (utf8.first (byte_val c)) as [[[size lo] hi]|] eqn:F; [|lia].
  destruct (first_spec _ _ _ _ F) as [[-> | [-> | ->]] _];
    destruct rest as [|c1 [|c2 [|c3 r]]]; simpl;
    repeat match goal with
           | |- context [if ?c then _ else _] => destruct c
           end; lia.
Qed.

(** Spaces after a string do not change how its bytes group into runes: a
    space is never a continuation byte. *)
Lemma advance_app_spaces (c : ascii) (rest : string) (k : nat) :
  utf8.advance c (rest ++ spaces k) = utf8.advance c rest.
Proof.
  unfold utf8.advance.
  destruct (byte_val c <? 0x80); [reflexivity|].
  destruct (utf8.first (byte_val c)) as [[[size lo] hi]|] eqn:F; [|reflexivity].
  destruct (first_spec _ _ _ _ F) as [Hsize Hlo].
  pose proof (outside_space lo hi Hlo) as Hsp.
  assert (Hc : utf8.outside " " 0x80 0xBF = true) by reflexivity.
  destruct Hsize as [-> | [-> | ->]];
    destruct rest as [|c1 [|c2 [|c3 r]]];
    destruct k as [|[|[|k]]]; cbn -[utf8.outside];
    rewrite ?Hsp, ?Hc;
    repeat match goal with
           | |- context [if ?c then _ else _] => destruct c
           end; reflexivity.
Qed.

Lemma count_le (skip : nat) (s : string) :
  (utf8.count skip s <= String.length s)%nat.
Proof.
  revert skip. induction s as [|c s IH]; intros skip; simpl; [lia|].
  destruct skip as [|j].
  - specialize (IH (utf8.advance c s - 1)%nat). lia.
  - specialize (IH j). lia.
Qed.

Lemma count_app_spaces (s : string) (k skip : nat) :
  (skip <= String.length s)%nat ->
  utf8.count skip (s ++ spaces k) = (utf8.count skip s + k)%nat.
Proof.
  revert skip. induction s as [|c s IH]; intros skip Hs.
  - simpl in Hs. replace skip with 0%nat by lia. simpl.
    now rewrite count_ASCII, length_spaces by apply isASCII_spaces.
  - simpl. destruct skip as [|j].
    + rewrite advance_app_spaces, IH; [reflexivity|].
      pose proof (advance_bounds c s). lia.
    + apply IH. simpl in Hs. lia.
Qed.

(** A string of at most [width] bytes is padded to exactly [width] runes. *)
Lemma RuneCount_padRight (width : Z) (s : string) :
  len s <= width ->
  utf8.RuneCountInString (fmt.padRight width s) = width.
Proof.
  intros H. unfold fmt.padRight, utf8.RuneCountInString.
  rewrite count_app_spaces by lia.
  pose proof (count_le 0 s). unfold len in H. lia.
Qed.

(** ** The timestamp *)

(** A valid time is rendered as [YYYY/MM/DD HH:MM:SS ] and a space. *)
Lemma Format_shape (t : time.Time) :
  validTime t -> matches "dddd/dd/dd dd:dd:dd " (time.Format t) = true.
Proof.
  intros (Hy & Hm & Hd & Hh & Hmi & Hs). unfold time.Format.
  apply (matches_app "dddd"); [apply appendInt_4_digits; lia|].
  apply (matches_app "/" "/"); [reflexivity|].
  apply (matches_app "dd"); [apply appendInt_2_digits; lia|].
  apply (matches_app "/" "/"); [reflexivity|].
  apply (matches_app "dd"); [apply appendInt_2_digits; lia|].
  apply (matches_app " " " "); [reflexivity|].
  apply (matches_app "dd"); [apply appendInt_2_digits; lia|].
  apply (matches_app ":" ":"); [reflexivity|].
  apply (matches_app "dd"); [apply appendInt_2_digits; lia|].
  apply (matches_app ":" ":"); [reflexivity|].
  apply (matches_app "dd" _ " " " "); [apply appendInt_2_digits; lia|].
  reflexivity.
Qed.

(** ** The core routine *)

Section LogFacts.

Context {P : fmt.Printer} (W : World).

(** [log] always returns; it leaves the state alone behind the gate and
    otherwise hands exactly one message to the sink. *)
Lemma log_run (l : Logger) (h : ref -> list call) (level skip : Z)
    (format : string) (a : list any) :
  log W level skip format a (mkState l h) =
  if level >? Level l then Return tt (mkState l h)
  else
    Return tt
      (mkState (set_locked false l)
         (record_call (w l) (Write (message W l level skip format a)) h)).
Proof.
  unfold log, bind, this. simpl.
  destruct (level >? Level l); reflexivity.
Qed.

Lemma gtb_false_iff (x y : Z) : (x >? y) = false <-> x <= y.
Proof. rewrite Z.gtb_ltb. apply Z.ltb_ge. Qed.

Lemma record_call_same (r : ref) (c : call) (h : ref -> list call) :
  record_call r c h r = (h r ++ [c])%list.
Proof. unfold record_call. now rewrite Nat.eqb_refl. Qed.

Lemma record_call_other (r r' : ref) (c : call) (h : ref -> list call) :
  r' <> r -> record_call r c h r' = h r'.
Proof.
  intros H. unfold record_call. now apply Nat.eqb_neq in H as ->.
Qed.

Lemma snoc_neq {A : Type} (xs : list A) (x : A) : (xs ++ [x])%list <> xs.
Proof.
  intros E. apply (f_equal (@List.length A)) in E.
  rewrite List.length_app in E. simpl in E. lia.
Qed.

(** The shape of every message: timestamp (when enabled), marker, location
    field, body, and a line feed unless the body ends with one. *)
Lemma message_shape (l : Logger) (level skip : Z) (format : string)
    (a : list any) :
  message W l level skip format a =
  stamp W l ++ marker level ++ " " ++ location W skip ++ " " ++
  fmt.Sprintf format a ++
  (if strings.HasSuffix (fmt.Sprintf format a) nl then "" else nl).
Proof.
  unfold message, stamp.
  set (body := fmt.Sprintf format a).
  set (loc := location W skip). set (m := marker level).
  assert (E : forall pre, strings.HasSuffix (pre ++ m ++ " " ++ loc ++ " " ++ body) nl
                          = strings.HasSuffix body nl).
  { intros pre. rewrite <- !app_assoc.
    rewrite (app_assoc _ " " body). apply HasSuffix_after_space. }
  destruct (Time l).
  - rewrite E. destruct (strings.HasSuffix body nl); cbn [negb].
    + now rewrite (append_nil_r body).
    + now rewrite !app_assoc.
  - change (strings.HasSuffix (m ++ " " ++ loc ++ " " ++ body) nl)
      with (strings.HasSuffix ("" ++ m ++ " " ++ loc ++ " " ++ body) nl).
    rewrite (E ""). destruct (strings.HasSuffix body nl); cbn [negb].
    + now rewrite (append_nil_r body).
    + now rewrite !app_assoc.
Qed.

(** C1: [log] returns, and it hands the message to the sink exactly when
    the severity's ordinal is at most the threshold's; above the threshold
    it returns with the state untouched. *)
Theorem log_writes_iff_level_le_threshold (s : State) (level skip : Z)
    (format : string) (a : list any) :
  exists s' : State,
    log W level skip format a s = Return tt s' /\
    (level <= Level (self s) <->
     sinks s' (w (self s)) =
     (sinks s (w (self s)) ++
      [Write (message W (self s) level skip format a)])%list) /\
    (level > Level (self s) -> s' = s).
Proof.
  destruct s as [l h]. simpl. rewrite log_run.
  destruct (level >? Level l) eqn:G.
  - apply Z.gtb_lt in G. exists (mkState l h). simpl.
    split; [reflexivity|split; [split|reflexivity]].
    + lia.
    + intros E. symmetry in E. now apply snoc_neq in E.
  - apply gtb_false_iff in G.
    eexists. split; [reflexivity|]. simpl. rewrite record_call_same.
    split; [tauto|lia].
Qed.

(** C2 (amended): every message ends with a line feed; one is appended
    exactly when the formatted body does not end with one, so the message
    ends with as many line feeds as the body does, and with one when the
    body ends with none. *)
Theorem message_ends_with_newline (l : Logger) (level skip : Z)
    (format : string) (a : list any) :
  let body := fmt.Sprintf format a in
  let msg := message W l level skip format a in
  msg = stamp W l ++ marker level ++ " " ++ location W skip ++ " " ++ body ++
        (if strings.HasSuffix body nl then "" else nl) /\
  strings.HasSuffix msg nl = true /\
  trailingNewlines msg = Nat.max 1 (trailingNewlines body).
Proof.
  intros body msg.
  assert (E := message_shape l level skip format a). fold body msg in E.
  split; [exact E|].
  assert (T : trailingNewlines msg = Nat.max 1 (trailingNewlines body)).
  { rewrite E.
    rewrite <- (app_assoc (stamp W l)), <- (app_assoc _ " "), <- app_assoc.
    change (" " ++ body ++ ?t) with (String " " (body ++ t)).
    rewrite trailingNewlines_app by reflexivity.
    pose proof (HasSuffix_trailingNewlines body) as S.
    destruct (strings.HasSuffix body nl).
    - rewrite append_nil_r.
      destruct (trailingNewlines body); [discriminate|lia].
    - rewrite trailingNewlines_add_nl.
      destruct (trailingNewlines body); [reflexivity|discriminate]. }
  split; [|exact T].
  rewrite HasSuffix_trailingNewlines, T.
  now destruct (trailingNewlines body).
Qed.

(** The marker of an unrecognized level. *)
Lemma marker_unrecognized (level : Z) :
  ~ In level [FatalLevel; ErrorLevel; InfoLevel; DebugLevel] ->
  marker level = strconv.Itoa level.
Proof.
  intros H. unfold marker, levelToLetter, index.
  unfold FatalLevel, ErrorLevel, InfoLevel, DebugLevel in *.
  simpl in H.
  destruct (Z.eqb_spec 0 level); [tauto|].
  destruct (Z.eqb_spec 1 level); [tauto|].
  destruct (Z.eqb_spec 2 level); [tauto|].
  destruct (Z.eqb_spec 3 level); [tauto|reflexivity].
Qed.

(** C7: a level outside Fatal, Error, Info and Debug that passes the gate
    is written with the decimal rendering of its ordinal as the marker. *)
Theorem unrecognized_level_marker_is_decimal (s : State) (level skip : Z)
    (format : string) (a : list any) :
  ~ In level [FatalLevel; ErrorLevel; InfoLevel; DebugLevel] ->
  level <= Level (self s) ->
  marker level = strconv.Itoa level /\
  exists s' : State,
    log W level skip format a s = Return tt s' /\
    sinks s' (w (self s)) =
    (sinks s (w (self s)) ++
     [Write (stamp W (self s) ++ strconv.Itoa level ++ " " ++
             location W skip ++ " " ++ fmt.Sprintf format a ++
             (if strings.HasSuffix (fmt.Sprintf format a) nl
              then "" else nl))])%list.
Proof.
  intros Hout Hgate. pose proof (marker_unrecognized level Hout) as Hm.
  split; [exact Hm|].
  destruct s as [l h]. simpl in *. rewrite log_run.
  replace (level >? Level l) with false by (symmetry; apply gtb_false_iff; lia).
  eexists. split; [reflexivity|]. simpl.
  now rewrite record_call_same, message_shape, Hm.
Qed.

(** C4: [Errorf] returns a non-nil error carrying the formatted message, on
    every threshold; below the Error threshold it does so without touching
    the state.  Without the verb [%w] the message is the [Sprintf]
    rendering that [log] writes. *)
Theorem Errorf_returns_formatted_error (s : State) (format : string)
    (a : list any) :
  exists (e : errorValue) (s' : State),
    Errorf W format a s = Return (Some e) s' /\
    e = fmt.Errorf format a /\
    log W ErrorLevel 1 format a s = Return tt s' /\
    (Level (self s) < ErrorLevel -> s' = s) /\
    (fmt.mentions_w format = false -> Error_ e = fmt.Sprintf format a).
Proof.
  destruct s as [l h]. unfold Errorf, bind, ret. rewrite log_run. simpl.
  destruct (ErrorLevel >? Level l) eqn:G.
  - do 2 eexists. repeat split. apply fmt.Errorf_Sprintf.
  - apply gtb_false_iff in G.
    do 2 eexists. repeat split; [lia|apply fmt.Errorf_Sprintf].
Qed.

(** C6: [Error] returns the error it was given; what it logs, at Error
    level, has the body [Error: ] followed by the rendering of the error
    and one line feed. *)
Theorem Error_logs_and_returns_same_error (s : State) (err : error) :
  let format := "Error: %v" ++ nl in
  let line := stamp W (self s) ++ "E" ++ " " ++ location W 1 ++ " " ++
              "Error: " ++ fmt.errString err ++ nl in
  exists s' : State,
    Error W err s = Return err s' /\
    log W ErrorLevel 1 format [any_of_error err] s = Return tt s' /\
    message W (self s) ErrorLevel 1 format [any_of_error err] = line /\
    (ErrorLevel <= Level (self s) ->
     sinks s' (w (self s)) = (sinks s (w (self s)) ++ [Write line])%list) /\
    (Level (self s) < ErrorLevel -> s' = s).
Proof.
  intros format line.
  assert (Hmsg : message W (self s) ErrorLevel 1 format [any_of_error err] = line).
  { rewrite message_shape. unfold format, line.
    rewrite fmt.Sprintf_Error.
    replace (strings.HasSuffix ("Error: " ++ fmt.errString err ++ nl) nl)
      with true.
    - now rewrite append_nil_r.
    - rewrite <- app_assoc. symmetry. apply (HasSuffix_snoc _ LF). }
  destruct s as [l h]. cbn [self sinks] in *.
  pose proof (log_run l h ErrorLevel 1 format [any_of_error err]) as L.
  unfold Error, bind, ret. change ("Error: %v" ++ nl) with format.
  rewrite L. clear L.
  destruct (ErrorLevel >? Level l) eqn:G.
  - apply Z.gtb_lt in G. exists (mkState l h).
    split; [reflexivity|]. split; [reflexivity|]. split; [exact Hmsg|].
    split; [lia|reflexivity].
  - apply gtb_false_iff in G. eexists.
    split; [reflexivity|]. split; [reflexivity|]. split; [exact Hmsg|].
    cbn [self sinks]. split; [|lia].
    intros _. now rewrite record_call_same, Hmsg.
Qed.

(** ** The timestamp flag *)

(** C5: with the caller, the clock and the arguments fixed, the message
    with the timestamp flag on is the [YYYY/MM/DD HH:MM:SS ] segment
    followed by the message with the flag off, and nothing else differs:
    dropping the 20 bytes of the segment gives the other message, and the
    two runs write under the same gate. *)
Theorem timestamp_flag_only_adds_prefix (l : Logger) (level skip : Z)
    (format : string) (a : list any) :
  validTime (time_Now W) ->
  let on := message W (with_Time true l) level skip format a in
  let off := message W (with_Time false l) level skip format a in
  on = time.Format (time_Now W) ++ off /\
  matches "dddd/dd/dd dd:dd:dd " (time.Format (time_Now W)) = true /\
  sliceFrom on 20 = off /\
  forall (b : bool) (h : ref -> list call),
    sinks (final (log W level skip format a (mkState (with_Time b l) h))) =
    if level >? Level l then h
    else record_call (w l) (Write (if b then on else off)) h.
Proof.
  intros Hv on off.
  pose proof (Format_shape _ Hv) as Hshape.
  assert (E : on = time.Format (time_Now W) ++ off).
  { unfold on, off. now rewrite !message_shape. }
  split; [exact E|]. split; [exact Hshape|]. split.
  - rewrite E. apply matches_length in Hshape.
    unfold sliceFrom. change (Z.to_nat 20) with 20%nat.
    change 20%nat with (String.length "dddd/dd/dd dd:dd:dd ").
    rewrite <- Hshape. apply drop_app.
  - intros b h. rewrite log_run. cbn [Level with_Time w].
    destruct (level >? Level l); [reflexivity|].
    destruct b; reflexivity.
Qed.

(** ** The fatal entry points *)

(** C8: [Fatalf] and [Fatal] run the logging step and then leave the
    process with status 1; they never return, whatever the threshold and
    whatever the sink did with the write. *)
Theorem Fatal_calls_exit_with_status_1 (s : State) (format : string)
    (a : list any) (err : error) :
  (exists s' : State,
     log W FatalLevel 1 format a s = Return tt s' /\
     Fatalf W format a s = Exit 1 s') /\
  (exists s' : State,
     log W FatalLevel 1 ("Error: %v" ++ nl) [any_of_error err] s = Return tt s' /\
     Fatal W err s = Exit 1 s') /\
  (Level (self s) < FatalLevel ->
   Fatalf W format a s = Exit 1 s /\ Fatal W err s = Exit 1 s).
Proof.
  destruct s as [l h]. unfold Fatalf, Fatal, bind, os_Exit.
  rewrite !log_run. cbn [self].
  destruct (FatalLevel >? Level l) eqn:G.
  - repeat split; eexists; split; reflexivity.
  - apply gtb_false_iff in G.
    split; [|split; [|lia]]; eexists; split; reflexivity.
Qed.

(** ** The frame of the logging operations *)

Lemma log_keeps_configuration (level skip : Z) (format : string)
    (a : list any) :
  keeps_configuration (log W level skip format a).
Proof.
  intros [l h]. rewrite log_run.
  destruct (level >? Level l); cbn [final self sinks].
  - split; [reflexivity|]. split; [reflexivity|].
    exists []. rewrite List.app_nil_r. repeat split. simpl. lia.
  - split; [reflexivity|]. split.
    + intros r Hr. now apply record_call_other.
    + eexists [_]. rewrite record_call_same. repeat split. simpl. lia.
Qed.

Lemma then_ret_keeps_configuration {A B : Type} (m : M A) (b : B) :
  keeps_configuration m -> keeps_configuration (m ;; ret b).
Proof.
  intros H s. specialize (H s). unfold bind, ret.
  destruct (m s); exact H.
Qed.

Lemma then_Exit_keeps_configuration {A B : Type} (m : M A) (code : Z) :
  keeps_configuration m -> keeps_configuration (m ;; @os_Exit B code).
Proof.
  intros H s. specialize (H s). unfold bind, os_Exit.
  destruct (m s); exact H.
Qed.

(** C10: none of [log], [Debugf], [Infof], [Errorf], [Error], [Fatalf] and
    [Fatal] changes the logger's threshold, timestamp flag or sink
    reference; besides the lock they touch only what the sink has been
    given. *)
Theorem logging_keeps_configuration (level skip : Z) (format : string)
    (a : list any) (err : error) :
  keeps_configuration (log W level skip format a) /\
  keeps_configuration (Debugf W format a) /\
  keeps_configuration (Infof W format a) /\
  keeps_configuration (Errorf W format a) /\
  keeps_configuration (Error W err) /\
  keeps_configuration (Fatalf W format a) /\
  keeps_configuration (Fatal W err).
Proof.
  repeat split;
    try apply then_ret_keeps_configuration;
    try apply then_Exit_keeps_configuration;
    apply log_keeps_configuration.
Qed.

End LogFacts.

(** ** The location field *)

Section LocationFacts.

Context {P : fmt.Printer} (W : World).

Lemma Sprintf_location_rendering (base : string) (line : Z) :
  fmt.Sprintf "%s:%-4d" [AnyString base; AnyInt line] = rendering base line.
Proof.
  rewrite fmt.Sprintf_location, padRight_ASCII by apply isASCII_Itoa.
  unfold rendering, len.
  replace (Z.to_nat (4 - Z.of_nat (String.length (strconv.Itoa line))))
    with (4 - String.length (strconv.Itoa line))%nat by lia.
  reflexivity.
Qed.

(** [location] in terms of the frame that [runtime.Caller] reports. *)
Lemma location_of_frame (skip : Z) (file : string) (line : Z) (ok : bool) :
  runtime_Caller W (int_wrap (2 + skip)) = (file, line, ok) ->
  location W skip =
  fmt.padRight 18
    (kept (rendering (filepath.Base (if negb ok then "unknown" else file)) line)).
Proof.
  intros H. unfold location. rewrite H.
  now rewrite Sprintf_location_rendering, fmt.Sprintf_pad18.
Qed.

Lemma len_kept_le (fl : string) : len (kept fl) <= 18.
Proof.
  unfold kept. destruct (len fl >? 18) eqn:G.
  - rewrite len_sliceFrom_18; [lia|exact G].
  - apply gtb_false_iff in G. exact G.
Qed.

(** Counted in runes the field is 18 wide, whatever the file name. *)
Lemma location_rune_width (skip : Z) :
  utf8.RuneCountInString (location W skip) = 18.
Proof.
  destruct (runtime_Caller W (int_wrap (2 + skip))) as [[file line] ok] eqn:H.
  rewrite (location_of_frame _ _ _ _ H).
  apply RuneCount_padRight, len_kept_le.
Qed.

Lemma isASCII_rendering (base : string) (line : Z) :
  isASCII base = true -> isASCII (rendering base line) = true.
Proof.
  intros H. unfold rendering.
  change (":" ++ ?s) with (String ":" s).
  rewrite isASCII_app, H. cbn [isASCII].
  now rewrite isASCII_app, isASCII_Itoa, isASCII_spaces.
Qed.

(** For an ASCII base name the field is 18 bytes: the rendering padded on
    the right when it has at most 18 bytes, its last 18 bytes otherwise. *)
Lemma location_ASCII (skip : Z) (file : string) (line : Z) (ok : bool) :
  runtime_Caller W (int_wrap (2 + skip)) = (file, line, ok) ->
  let base := filepath.Base (if negb ok then "unknown" else file) in
  let fl := rendering base line in
  isASCII base = true ->
  len (location W skip) = 18 /\
  (len fl <= 18 ->
   location W skip = fl ++ spaces (Z.to_nat (18 - len fl))) /\
  (18 < len fl -> location W skip = sliceFrom fl (len fl - 18)).
Proof.
  intros H base fl Hb. rewrite (location_of_frame _ _ _ _ H). fold base fl.
  assert (Hk : isASCII (kept fl) = true).
  { unfold kept. destruct (len fl >? 18).
    - apply isASCII_drop. now apply isASCII_rendering.
    - now apply isASCII_rendering. }
  rewrite padRight_ASCII by exact Hk.
  pose proof (len_kept_le fl) as Hle. split; [|split].
  - rewrite len_app. unfold len at 2. rewrite length_spaces. lia.
  - intros Hs. unfold kept.
    now replace (len fl >? 18) with false by (symmetry; apply gtb_false_iff; lia).
  - intros Hl. unfold kept.
    assert (G : (len fl >? 18) = true) by (apply Z.gtb_lt; lia).
    rewrite G, (len_sliceFrom_18 _ G). apply append_nil_r.
Qed.

(** C9: the line number is left-justified in four columns before the field
    is cut and padded, so a line below 1000 is followed by spaces; these
    spaces are part of the rendering that is cut to its last 18 bytes and
    padded to 18, and for an ASCII base name they count toward the 18 bytes
    of the field. *)
Theorem location_line_left_justified_in_4 (skip : Z) (file : string)
    (line : Z) (ok : bool) :
  runtime_Caller W (int_wrap (2 + skip)) = (file, line, ok) ->
  0 <= line < 1000 ->
  let base := filepath.Base (if negb ok then "unknown" else file) in
  let digits := strconv.Itoa line in
  let pad := (4 - String.length digits)%nat in
  let fl := base ++ ":" ++ digits ++ spaces pad in
  (1 <= pad <= 3)%nat /\
  fmt.Sprintf "%s:%-4d" [AnyString base; AnyInt line] = fl /\
  len fl = len base + 5 /\
  location W skip = fmt.padRight 18 (kept fl) /\
  (exists pre : string, kept fl = pre ++ ":" ++ digits ++ spaces pad) /\
  (isASCII base = true -> len (location W skip) = 18).
Proof.
  intros H Hline base digits pad fl.
  pose proof (Itoa_length_below_1000 line Hline) as Hd. fold digits in Hd.
  assert (Hlen : len fl = len base + 5).
  { unfold fl. rewrite !len_app. unfold len. rewrite length_spaces.
    unfold pad. simpl String.length. lia. }
  split; [unfold pad; lia|].
  split; [apply Sprintf_location_rendering|].
  split; [exact Hlen|].
  split; [exact (location_of_frame _ _ _ _ H)|].
  split.
  - unfold kept. destruct (len fl >? 18) eqn:G.
    + apply Z.gtb_lt in G. unfold sliceFrom.
      assert (Hn : (Z.to_nat (len fl - 18) <= String.length base)%nat)
        by (unfold len in *; lia).
      revert Hn. generalize (Z.to_nat (len fl - 18)). intros n Hn.
      unfold fl. rewrite drop_app_le by exact Hn.
      now eexists.
    + now exists base.
  - intros Hb. exact (proj1 (location_ASCII _ _ _ _ H Hb)).
Qed.

End LocationFacts.

(** * Further properties of the package *)

(** ** Decimal markers *)

Lemma to_int_proper (x : Z) :
  Z.to_int x <> Decimal.Pos Decimal.Nil /\ Z.to_int x <> Decimal.Neg Decimal.Nil.
Proof.
  destruct x as [|p|p]; simpl; split; try discriminate;
    intros [= E]; now apply DecimalPos.Unsigned.to_uint_nonnil in E.
Qed.

(** The decimal rendering can be read back. *)
Lemma Itoa_read_back (x : Z) :
  NilZero.int_of_string (strconv.Itoa x) = Some (Z.to_int x).
Proof.
  destruct (to_int_proper x). now apply NilZero.isi.
Qed.

Lemma Itoa_inj (x y : Z) : strconv.Itoa x = strconv.Itoa y -> x = y.
Proof.
  intros E. apply DecimalZ.to_int_inj.
  pose proof (Itoa_read_back x) as Hx. rewrite E, Itoa_read_back in Hx.
  congruence.
Qed.

Section MoreFacts.

Context {P : fmt.Printer}.

(** ** Markers *)

Lemma marker_cases (level : Z) :
  (In level [FatalLevel; ErrorLevel; InfoLevel; DebugLevel] /\
   In (marker level) ["F"; "E"; "_"; "."]) \/
  (~ In level [FatalLevel; ErrorLevel; InfoLevel; DebugLevel] /\
   marker level = strconv.Itoa level).
Proof.
  destruct (Z.eq_dec level 0) as [->|H0]; [left; simpl; auto|].
  destruct (Z.eq_dec level 1) as [->|H1]; [left; simpl; auto|].
  destruct (Z.eq_dec level 2) as [->|H2]; [left; simpl; auto|].
  destruct (Z.eq_dec level 3) as [->|H3]; [left; simpl; auto 6|].
  right.
  assert (H : ~ In level [FatalLevel; ErrorLevel; InfoLevel; DebugLevel]).
  { unfold FatalLevel, ErrorLevel, InfoLevel, DebugLevel. simpl. lia. }
  split; [exact H|now apply marker_unrecognized].
Qed.

Lemma letter_is_no_number (m : string) (x : Z) :
  In m ["F"; "E"; "_"; "."] -> m <> strconv.Itoa x.
Proof.
  intros Hm E. pose proof (Itoa_read_back x) as R. rewrite <- E in R.
  simpl in Hm.
  destruct Hm as [<-|[<-|[<-|[<-|[]]]]]; discriminate R.
Qed.

(** The marker tells the level: two levels with the same marker are the
    same level, whether they are among the four named ones or not. *)
Theorem marker_determines_level (x y : Z) : marker x = marker y -> x = y.
Proof.
  intros E.
  destruct (marker_cases x) as [[Hx Mx]|[Hx Mx]],
           (marker_cases y) as [[Hy My]|[Hy My]].
  - unfold FatalLevel, ErrorLevel, InfoLevel, DebugLevel in *. simpl in Hx, Hy.
    destruct Hx as [<-|[<-|[<-|[<-|[]]]]];
      destruct Hy as [<-|[<-|[<-|[<-|[]]]]];
      try reflexivity; discriminate E.
  - exfalso. rewrite My in E. rewrite E in Mx.
    now apply (letter_is_no_number _ y) in Mx.
  - exfalso. rewrite Mx in E. rewrite <- E in My.
    now apply (letter_is_no_number _ x) in My.
  - rewrite Mx, My in E. now apply Itoa_inj.
Qed.

(** ** The surroundings [log] depends on *)

(** [log] uses of its surroundings only the frame it asks for and the
    time. *)
Lemma message_ext (W W' : World) (l : Logger) (level skip : Z)
    (format : string) (a : list any) :
  runtime_Caller W (int_wrap (2 + skip)) = runtime_Caller W' (int_wrap (2 + skip)) ->
  time_Now W = time_Now W' ->
  message W l level skip format a = message W' l level skip format a.
Proof.
  intros HC HT. unfold message, location. now rewrite HC, HT.
Qed.

Lemma log_ext (W W' : World) (level skip : Z) (format : string)
    (a : list any) (s : State) :
  runtime_Caller W (int_wrap (2 + skip)) = runtime_Caller W' (int_wrap (2 + skip)) ->
  time_Now W = time_Now W' ->
  log W level skip format a s = log W' level skip format a s.
Proof.
  intros HC HT. destruct s as [l h].
  now rewrite !log_run, (message_ext W W') by assumption.
Qed.

Lemma location_of_site (f : runtime.Frame) (now : time.Time) (skip : Z) :
  location (siteWorld f now) skip = fieldOf f.
Proof. now apply (location_of_frame (siteWorld f now) skip _ _ true). Qed.

(** Every package-level function reports the place it was called from: it
    behaves as its method does when the frame found is the function's call
    site [site], whatever calls [outer] lie above it. *)
Theorem package_functions_report_their_call_site (logGo : string)
    (site : runtime.Frame) (outer : runtime.Stack) (now : time.Time)
    (format : string) (a : list any) (err : error) (s : State) :
  let callers := site :: outer in
  let W := siteWorld site now in
  location W 1 = fieldOf site /\
  pkg.Debugf logGo callers now format a s = Debugf W format a s /\
  pkg.Infof logGo callers now format a s = Infof W format a s /\
  pkg.Errorf logGo callers now format a s = Errorf W format a s /\
  pkg.Error logGo callers now err s = Error W err s /\
  pkg.Fatalf logGo callers now format a s = Fatalf W format a s /\
  pkg.Fatal logGo callers now err s = Fatal W err s.
Proof.
  intros callers W.
  split; [apply location_of_site|].
  unfold pkg.Debugf, pkg.Infof, pkg.Errorf, pkg.Error, pkg.Fatalf, pkg.Fatal,
    Debugf, Infof, Errorf, Error, Fatalf, Fatal, bind.
  repeat split;
    match goal with
    | |- context [log (methodWorld ?g ?k ?c ?n) ?lv ?sk ?f ?x s] =>
        rewrite (log_ext (methodWorld g k c n) W lv sk f x s)
          by reflexivity
    end; reflexivity.
Qed.

(** A method called directly, not through its package-level function,
    reports the call site one frame above its own: [log] asks for the same
    frame in both cases, and without the package-level function that frame
    is the caller's caller, [up]; the method's own call site [site] does
    not matter. *)
Theorem direct_method_calls_report_the_callers_caller (logGo : string)
    (site up : runtime.Frame) (outer : runtime.Stack) (now : time.Time)
    (format : string) (a : list any) (err : error) (s : State) :
  let callers := site :: up :: outer in
  let W := siteWorld up now in
  location (methodWorld logGo 115 callers now) 1 = fieldOf up /\
  Debugf (methodWorld logGo 115 callers now) format a s = Debugf W format a s /\
  Infof (methodWorld logGo 120 callers now) format a s = Infof W format a s /\
  Errorf (methodWorld logGo 126 callers now) format a s = Errorf W format a s /\
  Error (methodWorld logGo 132 callers now) err s = Error W err s /\
  Fatalf (methodWorld logGo 139 callers now) format a s = Fatalf W format a s /\
  Fatal (methodWorld logGo 146 callers now) err s = Fatal W err s.
Proof.
  intros callers W.
  split.
  { rewrite <- (location_of_site up now 1).
    unfold location. reflexivity. }
  unfold Debugf, Infof, Errorf, Error, Fatalf, Fatal, bind.
  repeat split;
    match goal with
    | |- context [log (methodWorld ?g ?k ?c ?n) ?lv ?sk ?f ?x s] =>
        rewrite (log_ext (methodWorld g k c n) W lv sk f x s)
          by reflexivity
    end; reflexivity.
Qed.

(** ** The frame that is not found *)

(** When [runtime.Caller] finds no frame (it then returns an empty file
    name and line 0), the location field is [unknown:0] and nine spaces. *)
Theorem location_of_missing_frame (W : World) (skip : Z) (file : string) :
  runtime_Caller W (int_wrap (2 + skip)) = (file, 0, false) ->
  location W skip = "unknown:0         ".
Proof.
  intros H. rewrite (location_of_frame W skip _ _ _ H).
  cbn [negb]. reflexivity.
Qed.

(** A method called directly from a function that has no caller left on
    the stack finds no frame. *)
Lemma location_of_short_stack (logGo : string) (callLine : Z)
    (site : runtime.Frame) (now : time.Time) :
  location (methodWorld logGo callLine [site] now) 1 = "unknown:0         ".
Proof. now apply (location_of_missing_frame _ 1 ""). Qed.

End MoreFacts.

Section MoreLogFacts.

Context {P : fmt.Printer} (W : World).

(** ** A new logger *)

(** A logger from [New], and [Default], drops Debug and Info messages
    without any effect and writes Error and Fatal messages: the threshold
    they start with is Error. *)
Theorem new_logger_logs_errors_only (r : ref) (h : ref -> list call)
    (format : string) (a : list any) (err : error) :
  let s := mkState (New r) h in
  let wrote level fmt_ args :=
    mkState (New r)
      (record_call r (Write (message W (New r) level 1 fmt_ args)) h) in
  Default = New Stderr /\
  Debugf W format a s = Return tt s /\
  Infof W format a s = Return tt s /\
  Errorf W format a s =
    Return (Some (fmt.Errorf format a)) (wrote ErrorLevel format a) /\
  Error W err s =
    Return err (wrote ErrorLevel ("Error: %v" ++ nl) [any_of_error err]) /\
  Fatalf W format a s = Exit 1 (wrote FatalLevel format a) /\
  Fatal W err s =
    Exit 1 (wrote FatalLevel ("Error: %v" ++ nl) [any_of_error err]).
Proof.
  intros s wrote. unfold s, wrote.
  unfold Debugf, Infof, Errorf, Error, Fatalf, Fatal, bind, ret, os_Exit.
  rewrite !log_run. repeat split.
Qed.

(** ** Closing *)

(** [Close] calls [Close] on the sink once and changes nothing else: not
    the logger, not the mutex, no other sink.  It does not disable the
    logger either: a later call that passes the gate still hands its
    message to the sink, after the close. *)
Theorem Close_forwards_and_does_not_disable (s : State) (level skip : Z)
    (format : string) (a : list any) :
  let r := w (self s) in
  exists s1 : State,
    Close s = Return tt s1 /\
    self s1 = self s /\
    sinks s1 r = (sinks s r ++ [CloseCall])%list /\
    (forall r' : ref, r' <> r -> sinks s1 r' = sinks s r') /\
    exists s2 : State,
      log W level skip format a s1 = Return tt s2 /\
      sinks s2 r =
      (sinks s r ++ CloseCall ::
       if level <=? Level (self s)
       then [Write (message W (self s) level skip format a)] else [])%list.
Proof.
  destruct s as [l h]. cbn [self sinks].
  eexists. split; [reflexivity|]. cbn [self sinks].
  split; [reflexivity|]. split; [apply record_call_same|].
  split; [intros r' Hr; now apply record_call_other|].
  rewrite log_run. destruct (level >? Level l) eqn:G.
  - apply Z.gtb_lt in G.
    replace (level <=? Level l) with false by (symmetry; apply Z.leb_gt; lia).
    eexists. split; [reflexivity|]. apply record_call_same.
  - apply gtb_false_iff in G.
    replace (level <=? Level l) with true by (symmetry; apply Z.leb_le; lia).
    eexists. split; [reflexivity|]. cbn [sinks].
    rewrite !record_call_same, <- List.app_assoc. reflexivity.
Qed.

(** ** The mutex *)

Lemma log_releases_lock (level skip : Z) (format : string) (a : list any) :
  releases_lock (log W level skip format a).
Proof.
  intros [l h]. rewrite log_run.
  destruct (level >? Level l); [now left|now right].
Qed.

Lemma then_ret_releases_lock {A B : Type} (m : M A) (b : B) :
  releases_lock m -> releases_lock (m ;; ret b).
Proof.
  intros H s. specialize (H s). unfold bind, ret. destruct (m s); exact H.
Qed.

Lemma then_Exit_releases_lock {A B : Type} (m : M A) (code : Z) :
  releases_lock m -> releases_lock (m ;; @os_Exit B code).
Proof.
  intros H s. specialize (H s). unfold bind, os_Exit. destruct (m s); exact H.
Qed.

(** No logging operation ends holding the mutex: each either leaves the
    state as it found it (the gate) or ends, by return or by exit, with the
    mutex released. *)
Theorem logging_releases_the_lock (level skip : Z) (format : string)
    (a : list any) (err : error) :
  releases_lock (log W level skip format a) /\
  releases_lock (Debugf W format a) /\
  releases_lock (Infof W format a) /\
  releases_lock (Errorf W format a) /\
  releases_lock (Error W err) /\
  releases_lock (Fatalf W format a) /\
  releases_lock (Fatal W err).
Proof.
  repeat split;
    try apply then_ret_releases_lock;
    try apply then_Exit_releases_lock;
    apply log_releases_lock.
Qed.

(** ** The width of the location field *)

(** Counted in runes, as [fmt] counts a width, the location field is 18
    wide for every file name and line. *)
Theorem location_is_18_runes_wide (skip : Z) :
  utf8.RuneCountInString (location W skip) = 18.
Proof.
  destruct (runtime_Caller W (int_wrap (2 + skip))) as [[file line] ok] eqn:H.
  rewrite (location_of_frame W skip _ _ _ H).
  apply RuneCount_padRight.
  unfold kept. destruct (len _ >? 18) eqn:G.
  - rewrite len_sliceFrom_18 by exact G. lia.
  - now apply gtb_false_iff.
Qed.

(** For a base name of ASCII bytes the location field has exactly 18
    bytes: the rendering followed by spaces when it has at most 18 bytes,
    and its last 18 bytes when it has more. *)
Theorem location_of_ASCII_name_is_18_bytes (skip : Z) (file : string)
    (line : Z) (ok : bool) :
  runtime_Caller W (int_wrap (2 + skip)) = (file, line, ok) ->
  isASCII (filepath.Base (if negb ok then "unknown" else file)) = true ->
  let fl := rendering (filepath.Base (if negb ok then "unknown" else file)) line in
  len (location W skip) = 18 /\
  (len fl <= 18 ->
   location W skip = fl ++ spaces (Z.to_nat (18 - len fl))) /\
  (18 < len fl -> location W skip = sliceFrom fl (len fl - 18)).
Proof. intros H Hb. exact (location_ASCII W skip file line ok H Hb). Qed.

(** When the rendering is too long, only leading bytes of the base name
    are cut: the colon, the line number (of at most 17 digits) and its
    padding are kept in full after the end of the base name. *)
Theorem truncation_cuts_the_base_name_only (skip : Z) (file : string)
    (line : Z) (ok : bool) :
  runtime_Caller W (int_wrap (2 + skip)) = (file, line, ok) ->
  let base := filepath.Base (if negb ok then "unknown" else file) in
  let digits := strconv.Itoa line in
  let tail := ":" ++ digits ++ spaces (4 - String.length digits) in
  18 < len (rendering base line) ->
  (String.length digits <= 17)%nat ->
  let n := len base + len tail - 18 in
  0 < n <= len base /\
  len tail <= 18 /\
  location W skip = fmt.padRight 18 (sliceFrom base n ++ tail).
Proof.
  intros H base digits tail Hlong Hd n.
  assert (Hfl : rendering base line = base ++ tail) by reflexivity.
  assert (Ht : len tail <= 18).
  { unfold tail. change (":" ++ ?x) with (String ":" x).
    unfold len. cbn [String.length]. rewrite length_app, length_spaces. lia. }
  rewrite Hfl, len_app in Hlong.
  split; [unfold n; lia|]. split; [exact Ht|].
  rewrite (location_of_frame W skip _ _ _ H). fold base. rewrite Hfl.
  unfold kept. rewrite len_app.
  replace (len base + len tail >? 18) with true by (symmetry; apply Z.gtb_lt; lia).
  fold n. unfold sliceFrom.
  rewrite drop_app_le by (unfold n, len in *; lia).
  reflexivity.
Qed.

(** ** The columns of a line *)

Lemma marker_of_named_level (level : Z) :
  In level [FatalLevel; ErrorLevel; InfoLevel; DebugLevel] ->
  len (marker level) = 1.
Proof.
  unfold FatalLevel, ErrorLevel, InfoLevel, DebugLevel. simpl.
  intros [<-|[<-|[<-|[<-|[]]]]]; reflexivity.
Qed.

(** For one of the four named levels, a valid clock and a base name of
    ASCII bytes, the formatted body starts at a fixed byte of the line: at
    offset 41 with the timestamp and at offset 21 without it. *)
Theorem body_starts_at_fixed_column (l : Logger) (level skip : Z)
    (format : string) (a : list any) (file : string) (line : Z) (ok : bool) :
  runtime_Caller W (int_wrap (2 + skip)) = (file, line, ok) ->
  isASCII (filepath.Base (if negb ok then "unknown" else file)) = true ->
  validTime (time_Now W) ->
  In level [FatalLevel; ErrorLevel; InfoLevel; DebugLevel] ->
  exists prefix : string,
    message W l level skip format a =
    prefix ++ fmt.Sprintf format a ++
    (if strings.HasSuffix (fmt.Sprintf format a) nl then "" else nl) /\
    len prefix = (if Time l then 41 else 21) /\
    sliceFrom (message W l level skip format a) (len prefix) =
    fmt.Sprintf format a ++
    (if strings.HasSuffix (fmt.Sprintf format a) nl then "" else nl).
Proof.
  intros H Hb Hv Hl.
  exists (stamp W l ++ marker level ++ " " ++ location W skip ++ " ").
  assert (E : message W l level skip format a =
              (stamp W l ++ marker level ++ " " ++ location W skip ++ " ") ++
              fmt.Sprintf format a ++
              (if strings.HasSuffix (fmt.Sprintf format a) nl then "" else nl)).
  { rewrite message_shape, !app_assoc. reflexivity. }
  split; [exact E|]. split.
  - rewrite !len_app, (marker_of_named_level level Hl).
    rewrite (proj1 (location_ASCII W skip file line ok H Hb)).
    unfold stamp. destruct (Time l).
    + pose proof (matches_length _ _ (Format_shape _ Hv)) as L.
      unfold len at 1. rewrite L. reflexivity.
    + reflexivity.
  - rewrite E at 1. unfold sliceFrom, len. rewrite Nat2Z.id. apply drop_app.
Qed.

End MoreLogFacts.

(** ** Consecutive calls *)

Section RunFacts.

Context {P : fmt.Printer}.

Lemma lines_cons (l : Logger) (c : LogCall) (cs : list LogCall) :
  lines l (c :: cs) =
  ((if lc_level c >? Level l then []
    else [Write (message (lc_world c) l (lc_level c) (lc_skip c)
                   (lc_format c) (lc_args c))]) ++ lines l cs)%list.
Proof.
  unfold lines. cbn [filter].
  rewrite Z.gtb_ltb, Z.leb_antisym.
  now destruct (Level l <? lc_level c).
Qed.

(** Consecutive calls of [log] on one logger add to its sink the messages
    of the calls that pass the gate, one [Write] each, in the order of the
    calls; each message is the one the call would write on its own, earlier
    writes stay in place, the configuration stays, and no other sink is
    touched. *)
Theorem consecutive_calls_append_in_order (cs : list LogCall) (s : State) :
  exists s' : State,
    logs cs s = Return tt s' /\
    config (self s') = config (self s) /\
    sinks s' (w (self s)) = (sinks s (w (self s)) ++ lines (self s) cs)%list /\
    forall r : ref, r <> w (self s) -> sinks s' r = sinks s r.
Proof.
  revert s. induction cs as [|c cs IH]; intros [l h]; cbn [self sinks].
  - exists (mkState l h). cbn. rewrite List.app_nil_r. auto.
  - cbn [logs]. unfold bind. rewrite log_run, lines_cons.
    destruct (lc_level c >? Level l).
    + destruct (IH (mkState l h)) as (s' & R & C & S & O).
      exists s'. cbn [self sinks] in *. auto.
    + match goal with
      | |- context [logs cs ?st] => destruct (IH st) as (s' & R & C & S & O)
      end.
      exists s'. cbn [self sinks set_locked w] in *.
      split; [exact R|]. split; [exact C|]. split.
      * rewrite S, record_call_same, <- List.app_assoc. reflexivity.
      * intros r Hr. rewrite (O r Hr). now apply record_call_other.
Qed.

End RunFacts.

(** ** The logger on concrete inputs *)

#[local] Existing Instance RefPrinterFacts.printer.

Example Errorf_example :
  Errorf sampleWorld "x=%d" [AnyInt 5] sampleState =
  Return (Some (mkError "x=5"))
    {| self := Default;
       sinks := record_call Stderr
                  (Write ("2018/03/09 07:05:00 E main.go:42         x=5" ++ nl))
                  (fun _ => []) |}.
Proof. reflexivity. Qed.

(** Below the Error threshold nothing is written and the error is still
    returned. *)
Example Errorf_example_suppressed :
  Errorf sampleWorld "x=%d" [AnyInt 5] quietState =
  Return (Some (mkError "x=5")) quietState.
Proof. reflexivity. Qed.

Example Fatal_example :
  Fatal sampleWorld None sampleState =
  Exit 1
    {| self := Default;
       sinks := record_call Stderr
                  (Write ("2018/03/09 07:05:00 F main.go:42         Error: <nil>" ++ nl))
                  (fun _ => []) |}.
Proof. reflexivity. Qed.

(** C2, as stated, fails: a body that ends with two line feeds is written
    with both of them. *)
Lemma two_trailing_newlines_are_kept :
  log sampleWorld ErrorLevel 1 ("a" ++ nl ++ nl) [] sampleState =
  Return tt
    {| self := Default;
       sinks := record_call Stderr
                  (Write ("2018/03/09 07:05:00 E main.go:42         a" ++ nl ++ nl))
                  (fun _ => []) |} /\
  trailingNewlines
    (message sampleWorld Default ErrorLevel 1 ("a" ++ nl ++ nl) []) = 2%nat /\
  trailingNewlines
    (message sampleWorld Default ErrorLevel 1 ("a" ++ nl ++ nl) []) <> 1%nat.
Proof.
  split; [reflexivity|]. split; [reflexivity|].
  vm_compute. discriminate.
Qed.

(** C3 at a file name that is not ASCII: the rendering has 17 runes in 19
    bytes; [log] drops its first byte, which splits the first letter, and
    pads what is left, so the field has 19 bytes and is not the rendering
    padded on the right. *)
Theorem location_of_accented_file_name :
  let fl := rendering (filepath.Base accentedFile) 1 in
  fl = eacute ++ eacute ++ "logging.go:1   " /\
  utf8.RuneCountInString fl = 17 /\
  len fl = 19 /\
  location accentedWorld 1 =
    String "169" (eacute ++ "logging.go:1   ") ++ " " /\
  len (location accentedWorld 1) = 19 /\
  utf8.RuneCountInString (location accentedWorld 1) = 18 /\
  location accentedWorld 1 <> fl ++ " ".
Proof.
  cbv zeta. repeat split; try reflexivity.
  vm_compute. discriminate.
Qed.

(** The size of the same field in bytes, against the 18 of the claim. *)
Example accented_field_is_not_18_bytes :
  len (location accentedWorld 1) <> 18.
Proof. vm_compute. discriminate. Qed.

(** The level -1 under the default threshold: its marker is [-1]. *)
Lemma unrecognized_level_marker_witness :
  marker (-1) = strconv.Itoa (-1) /\
  exists s' : State,
    log sampleWorld (-1) 1 "x" [] sampleState = Return tt s' /\
    sinks s' (w (self sampleState)) =
    (sinks sampleState (w (self sampleState)) ++
     [Write (stamp sampleWorld (self sampleState) ++ strconv.Itoa (-1) ++ " " ++
             location sampleWorld 1 ++ " " ++ fmt.Sprintf "x" [] ++
             (if strings.HasSuffix (fmt.Sprintf "x" []) nl then "" else nl))])%list.
Proof.
  apply (unrecognized_level_marker_is_decimal sampleWorld sampleState (-1) 1 "x" []).
  - unfold FatalLevel, ErrorLevel, InfoLevel, DebugLevel. simpl. lia.
  - simpl. unfold ErrorLevel. lia.
Defined.

(** The two settings of the flag on the sample call. *)
Lemma timestamp_flag_witness :
  message sampleWorld (with_Time true Default) ErrorLevel 1 "x" [] =
  time.Format (time_Now sampleWorld) ++
  message sampleWorld (with_Time false Default) ErrorLevel 1 "x" [].
Proof.
  apply (timestamp_flag_only_adds_prefix sampleWorld Default ErrorLevel 1 "x" []).
  unfold validTime. simpl. lia.
Defined.

(** Line 42 of main.go: two digits, two spaces, then the padding to 18. *)
Lemma location_line_witness :
  fmt.Sprintf "%s:%-4d" [AnyString "main.go"; AnyInt 42] = "main.go:42  " /\
  location sampleWorld 1 = "main.go:42        ".
Proof.
  pose proof (location_line_left_justified_in_4 sampleWorld 1
                "/home/u/src/main.go" 42 true eq_refl) as H.
  assert (R : 0 <= 42 < 1000) by lia.
  specialize (H R). cbv zeta in H.
  destruct H as (_ & H1 & _ & H2 & _).
  split; [exact H1|]. rewrite H2. reflexivity.
Defined.

(** ** The further properties on concrete inputs *)

(** Called from line 42 of main.go, the package-level function names that
    line. *)
Example package_Errorf_example :
  pkg.Errorf "/home/u/go/logsim/log.go" mainStack clock "x=%d" [AnyInt 5]
    sampleState =
  Return (Some (mkError "x=5"))
    {| self := Default;
       sinks := record_call Stderr
                  (Write ("2018/03/09 07:05:00 E main.go:42         x=5" ++ nl))
                  (fun _ => []) |}.
Proof. reflexivity. Qed.

(** Called from the same line, the method names the line of proc.go that
    called [main]. *)
Example method_Errorf_example :
  Errorf (methodWorld "/home/u/go/logsim/log.go" 126 mainStack clock)
    "x=%d" [AnyInt 5] sampleState =
  Return (Some (mkError "x=5"))
    {| self := Default;
       sinks := record_call Stderr
                  (Write ("2018/03/09 07:05:00 E proc.go:250        x=5" ++ nl))
                  (fun _ => []) |}.
Proof. reflexivity. Qed.

(** The marker [7] belongs to the level 7 only. *)
Lemma marker_determines_level_witness : 7 = 7.
Proof. apply (marker_determines_level 7 7). reflexivity. Defined.

(** Two frames above [runtime.Caller] the sample stack has nothing. *)
Lemma location_of_missing_frame_witness :
  location sampleWorld 0 = "unknown:0         ".
Proof. apply (location_of_missing_frame sampleWorld 0 ""). reflexivity. Defined.

(** main.go:42 is rendered in 12 bytes and padded with 6 spaces. *)
Lemma location_of_ASCII_name_witness :
  len (location sampleWorld 1) = 18 /\
  location sampleWorld 1 = "main.go:42  " ++ spaces 6.
Proof.
  pose proof (location_of_ASCII_name_is_18_bytes sampleWorld 1
                "/home/u/src/main.go" 42 true eq_refl eq_refl) as H.
  cbv zeta in H. destruct H as (H1 & H2 & _).
  split; [exact H1|]. apply H2. vm_compute. discriminate.
Defined.

(** Of request_handler_test.go:1234 the last 13 bytes of the name and the
    line number are kept. *)
Lemma truncation_witness :
  location longNameWorld 1 = "ndler_test.go:1234".
Proof.
  pose proof (truncation_cuts_the_base_name_only longNameWorld 1
                "/home/u/src/request_handler_test.go" 1234 true eq_refl) as H.
  cbv zeta in H.
  assert (H1 : 18 < len (rendering (filepath.Base "/home/u/src/request_handler_test.go") 1234))
    by (vm_compute; reflexivity).
  assert (H2 : (String.length (strconv.Itoa 1234) <= 17)%nat)
    by (vm_compute; lia).
  destruct (H H1 H2) as (_ & _ & E). rewrite E. reflexivity.
Defined.

(** On the sample call the body [x] starts at byte 41. *)
Lemma body_starts_at_fixed_column_witness :
  sliceFrom (message sampleWorld Default ErrorLevel 1 "x" []) 41 = "x" ++ nl.
Proof.
  assert (V : validTime (time_Now sampleWorld))
    by (unfold validTime; simpl; lia).
  assert (L : In ErrorLevel [FatalLevel; ErrorLevel; InfoLevel; DebugLevel])
    by (simpl; auto).
  destruct (body_starts_at_fixed_column sampleWorld Default ErrorLevel 1 "x" []
              "/home/u/src/main.go" 42 true eq_refl eq_refl V L)
    as (prefix & _ & Hlen & Hbody).
  cbn [Time Default] in Hlen. rewrite Hlen in Hbody. exact Hbody.
Defined.
